(** * name_anonymizer: a shallow embedding of [name_anonymizer.py]

    The module is glue code around two external engines (the Presidio
    analyzer and anonymizer) and a pandas table.  The engines are kept
    abstract behind the interface [Presidio]; the three functions of the
    module, [initialize_anonymizer], [anonymize_text] and
    [anonymize_dataframe_column], are embedded over that interface.

    Python strings are modelled as [string]; offsets into a text count
    characters of that string. *)

From Stdlib Require Import QArith Qcanon Ascii String.
From stdpp Require Import gmap strings list fin_maps pretty sorting.

Close Scope Q_scope.
Close Scope Qc_scope.

Open Scope string_scope.

(** ** Data model *)

(** [OperatorConfig(operator_name, params)] of [presidio_anonymizer]. *)
Record OperatorConfig := mkOperatorConfig {
  operator_name : string;
  params : gmap string string
}.

(** One detection: [RecognizerResult(entity_type, start, end, score)].
    The module itself only ever reads [entity_type]. *)
Record RecognizerResult := mkRecognizerResult {
  entity_type : string;
  start : nat;
  end_ : nat;
  score : Qc
}.

(** The external engines.  [Recognizer] is the type of recognizer objects
    (built-in ones, pattern recognizers, and anything passed in as
    [flair_recognizer]); the two methods are the only calls the module
    makes on the engines. *)
Class Presidio := {
  Recognizer : Type;
  (** the recognizers that [registry.load_predefined_recognizers()] adds *)
  predefined_recognizers : list Recognizer;
  (** [PatternRecognizer(supported_entity=e, deny_list=l)] *)
  PatternRecognizer : string -> list string -> Recognizer;
  (** [AnalyzerEngine(registry=r).analyze(text=t, entities=es, language=lang)] *)
  analyze : list Recognizer -> string -> list string -> string -> list RecognizerResult;
  (** [AnonymizerEngine().anonymize(text=t, analyzer_results=rs, operators=ops).text] *)
  anonymize : string -> list RecognizerResult -> gmap string OperatorConfig -> string
}.

(** ** The table and the interpreter state *)

(** A value held in a cell of a pandas column of dtype [object]: a Python
    [str], [int], [bool], [None], or the float [nan] that pandas uses for
    a missing number. *)
Inductive Cell :=
  | PyStr (s : string)
  | PyInt (z : Z)
  | PyBool (b : bool)
  | PyNone
  | PyNaN.

(** Python's [str(v)]. *)
Definition py_str (v : Cell) : string :=
  match v with
  | PyStr s => s
  | PyInt z => pretty z
  | PyBool true => "True"
  | PyBool false => "False"
  | PyNone => "None"
  | PyNaN => "nan"
  end.

(** [Series.astype(str)]: [str] applied to every element, in order. *)
Definition astype_str (series : list Cell) : list Cell :=
  (λ v, PyStr (py_str v)) <$> series.

(** A [DataFrame]: the length of its index and its labelled columns, in
    column order. *)
Record DataFrame := mkDataFrame {
  nrows : nat;
  columns : list (string * list Cell)
}.

(** Every column spans the whole index and labels are not repeated. *)
Definition df_wf (d : DataFrame) : Prop :=
  Forall (λ c, length c.2 = nrows d) (columns d) ∧ NoDup (columns d).*1.

Fixpoint column_lookup (name : string) (cols : list (string * list Cell))
    : option (list Cell) :=
  match cols with
  | [] => None
  | (k, v) :: rest => if decide (k = name) then Some v else column_lookup name rest
  end.

(** Column assignment: an existing label keeps its position and gets the
    new values, a new label is appended after the last column. *)
Fixpoint column_assign (name : string) (values : list Cell)
    (cols : list (string * list Cell)) : list (string * list Cell) :=
  match cols with
  | [] => [(name, values)]
  | (k, v) :: rest =>
      if decide (k = name) then (k, values) :: rest
      else (k, v) :: column_assign name values rest
  end.

(** What [print] writes to standard output. *)
Inductive Output :=
  | PrintStr (s : string)
  | PrintResult (n : RecognizerResult).

(** Objects are referred to by address; a [DataFrame] argument is such an
    address, so that a mutation is seen by every holder of it. *)
Definition loc := positive.

Record World := mkWorld {
  heap : gmap loc DataFrame;
  stdout : list Output
}.

Inductive PyException :=
  | KeyError (key : string)
  | ValueError
  | TypeError
  | DanglingReference.

Inductive Outcome (A : Type) :=
  | Returns (a : A)
  | Raises (e : PyException).
Global Arguments Returns {A} a.
Global Arguments Raises {A} e.

(** A computation reads and updates the world and returns or raises; the
    updates made before an exception stay. *)
Definition Py (A : Type) : Type := World -> Outcome A * World.

Definition ret {A} (a : A) : Py A := λ w, (Returns a, w).

Definition raise {A} (e : PyException) : Py A := λ w, (Raises e, w).

Definition bind {A B} (c : Py A) (k : A -> Py B) : Py B :=
  λ w, match c w with
       | (Returns a, w') => k a w'
       | (Raises e, w') => (Raises e, w')
       end.

Notation "x <- c ;; k" := (bind c (λ x, k))
  (at level 100, c at next level, right associativity).
Notation "c ;;; k" := (bind c (λ _, k))
  (at level 100, right associativity).

(** [df[name]] *)
Definition df_getitem (df : loc) (name : string) : Py (list Cell) :=
  λ w, match heap w !! df with
       | None => (Raises DanglingReference, w)
       | Some d =>
           match column_lookup name (columns d) with
           | Some series => (Returns series, w)
           | None => (Raises (KeyError name), w)
           end
       end.

(** [df[name] = values]: the object at [df] is updated in place; values
    of another length than the index are refused. *)
Definition df_setitem (df : loc) (name : string) (values : list Cell) : Py unit :=
  λ w, match heap w !! df with
       | None => (Raises DanglingReference, w)
       | Some d =>
           if decide (length values = nrows d) then
             (Returns tt,
              mkWorld (<[df := mkDataFrame (nrows d) (column_assign name values (columns d))]> (heap w))
                      (stdout w))
           else (Raises ValueError, w)
       end.

Definition print (o : Output) : Py unit :=
  λ w, (Returns tt, mkWorld (heap w) (stdout w ++ [o])).

(** [tqdm(iterable, desc=...)] yields the elements of the iterable; its
    progress bar goes to standard error, which is not part of [World]. *)
Definition tqdm {A} (iterable : list A) : list A := iterable.

(** The argument [text_to_anonymize] is a [str]; the engines refuse
    anything else. *)
Definition as_text (value : Cell) : Py string :=
  match value with
  | PyStr s => ret s
  | _ => raise TypeError
  end.

Section Anonymizer.
Context `{P : Presidio}.

(** A [RecognizerRegistry] is the list of its recognizers, in the order
    they were added. *)
Definition RecognizerRegistry : list Recognizer := [].

Definition load_predefined_recognizers (registry : list Recognizer) : list Recognizer :=
  registry ++ predefined_recognizers.

Definition add_recognizer (registry : list Recognizer) (r : Recognizer) : list Recognizer :=
  registry ++ [r].

(** [AnalyzerEngine(registry=registry)] keeps the registry it was given. *)
Record AnalyzerEngine := mkAnalyzerEngine { registry : list Recognizer }.

(** [AnonymizerEngine()] has no configuration. *)
Inductive AnonymizerEngine := mkAnonymizerEngine.

(** The dictionary returned by [initialize_anonymizer]: always the four
    keys ['analyzer'], ['anonymizer'], ['config'], ['entities']. *)
Record EngineConfig := mkEngineConfig {
  analyzer : AnalyzerEngine;
  anonymizer : AnonymizerEngine;
  config : gmap string OperatorConfig;
  entities : list string
}.

(** The operator both managed entity types are mapped to:
    [OperatorConfig("replace", {"new_value": "[name redacted]"})]. *)
Definition replace_name_redacted : OperatorConfig :=
  mkOperatorConfig "replace" {[ "new_value" := "[name redacted]" ]}.

(** Python's truth value of the [deny_list] argument: [None] and the
    empty list are false. *)
Definition deny_list_bool (deny_list : option (list string)) : bool :=
  match deny_list with
  | Some (_ :: _) => true
  | _ => false
  end.

(** ** [initialize_anonymizer] (lines 18-70) *)

(** The test [if flair_recognizer:] goes by Python's truth value: [None]
    is false, and a recognizer object, which defines neither [__bool__]
    nor [__len__], is true; hence the [match] on the option. *)

Definition initialize_anonymizer
    (deny_list : option (list string))
    (flair_recognizer : option Recognizer) : EngineConfig :=
  let registry := RecognizerRegistry in
  let registry := load_predefined_recognizers registry in
  let analyzer_entites := ["PERSON"] in
  let registry :=
    if deny_list_bool deny_list then
      let deny_list_recognizer :=
        PatternRecognizer "PREDEFINED_NAME" (default [] deny_list) in
      add_recognizer registry deny_list_recognizer
    else registry in
  let registry :=
    match flair_recognizer with
    | Some r => add_recognizer registry r
    | None => registry
    end in
  let analyzer := mkAnalyzerEngine registry in
  let anonymizer := mkAnonymizerEngine in
  let anonymizer_config : gmap string OperatorConfig :=
    {[ "PERSON" := replace_name_redacted ]} in
  let '(anonymizer_config, analyzer_entites) :=
    if deny_list_bool deny_list then
      (<["PREDEFINED_NAME" := replace_name_redacted]> anonymizer_config,
       (analyzer_entites ++ ["PREDEFINED_NAME"])%list)
    else (anonymizer_config, analyzer_entites) in
  mkEngineConfig analyzer anonymizer anonymizer_config analyzer_entites.

(** ** [anonymize_text] (lines 72-107) *)

Definition anonymize_text (text_to_anonymize : string) (engine_config : EngineConfig)
    : string * list RecognizerResult :=
  let analyzer := analyzer engine_config in
  let config := config engine_config in
  let entites := entities engine_config in
  let analyzer_results :=
    analyze (registry analyzer) text_to_anonymize entites "en" in
  let anonymized_result :=
    anonymize text_to_anonymize analyzer_results config in
  (anonymized_result, analyzer_results).

(** What the detector reports for a text under a bundle (line 102). *)
Definition detections (engine_config : EngineConfig) (text : string)
    : list RecognizerResult :=
  analyze (registry (analyzer engine_config)) text (entities engine_config) "en".

(** ** [anonymize_dataframe_column] (lines 109-151) *)

(** Lines 143-146: the notices for one row. *)
Fixpoint report_edge_cases (ent_list : list RecognizerResult) : Py unit :=
  match ent_list with
  | [] => ret tt
  | n :: rest =>
      (if bool_decide (entity_type n ≠ "PREDEFINED_NAME")
          && bool_decide (entity_type n ≠ "PERSON")
       then print (PrintStr "Edage Case Found!") ;;; print (PrintResult n)
       else ret tt) ;;;
      report_edge_cases rest
  end.

(** Lines 141-147: the loop over the column, [anonymized_values] being
    the list built so far. *)
Fixpoint anonymize_values (values : list Cell) (engine_config : EngineConfig)
    (anonymized_values : list string) : Py (list string) :=
  match values with
  | [] => ret anonymized_values
  | value :: rest =>
      text <- as_text value ;;
      let '(anonymized_value, ent_list) := anonymize_text text engine_config in
      report_edge_cases ent_list ;;;
      anonymize_values rest engine_config (anonymized_values ++ [anonymized_value])%list
  end.

Definition anonymize_dataframe_column (df : loc) (column_name new_column_name : string)
    (engine_config : EngineConfig) : Py loc :=
  series <- df_getitem df column_name ;;
  df_setitem df column_name (astype_str series) ;;;
  values <- df_getitem df column_name ;;
  anonymized_values <- anonymize_values (tqdm values) engine_config [] ;;
  df_setitem df new_column_name (PyStr <$> anonymized_values) ;;;
  ret df.

(** Line 138 on its own, and the rest of the body (lines 139-151). *)
Definition coerce_source (df : loc) (column_name : string) : Py unit :=
  series <- df_getitem df column_name ;;
  df_setitem df column_name (astype_str series).

Definition anonymize_rows (df : loc) (column_name new_column_name : string)
    (engine_config : EngineConfig) : Py loc :=
  values <- df_getitem df column_name ;;
  anonymized_values <- anonymize_values (tqdm values) engine_config [] ;;
  df_setitem df new_column_name (PyStr <$> anonymized_values) ;;;
  ret df.

(** The notices one row gives rise to: two lines for every detection
    whose entity type is neither [PREDEFINED_NAME] nor [PERSON]. *)
Definition edge_notices (ent_list : list RecognizerResult) : list Output :=
  mjoin ((λ n, if bool_decide (entity_type n ≠ "PREDEFINED_NAME")
                  && bool_decide (entity_type n ≠ "PERSON")
               then [PrintStr "Edage Case Found!"; PrintResult n]
               else []) <$> ent_list).

(** Row by row: the anonymized text of the text representation of each
    value, and the notices of all rows in row order. *)
Definition anonymized_column (engine_config : EngineConfig) (source : list Cell)
    : list Cell :=
  (λ v, PyStr (anonymize_text (py_str v) engine_config).1) <$> source.

Definition column_notices (engine_config : EngineConfig) (source : list Cell)
    : list Output :=
  mjoin ((λ v, edge_notices (anonymize_text (py_str v) engine_config).2) <$> source).

End Anonymizer.

(** ** A reference model of the engines *)

Module SpecEngines.

(** Modelled from the spec: a recognizer (the Presidio recognizer classes,
    which are not part of this module) has the single capability "produce
    entity detections over a text given a language tag" (spec section 9). *)
Definition SpecRecognizer : Type := string -> string -> list RecognizerResult.

Definition string_take (n : nat) (s : string) : string := String.substring 0 n s.

Definition string_drop (n : nat) (s : string) : string :=
  String.substring n (String.length s - n) s.

(** The offsets at which [pat] occurs in [text], left to right, an
    occurrence starting only after the previous one has ended; [pos] is
    the offset of [text] in the whole text and [skip] the number of
    characters still covered by the previous occurrence. *)
Fixpoint find_all_from (pat text : string) (pos skip : nat) : list nat :=
  match text with
  | EmptyString => []
  | String _ rest =>
      match skip with
      | S k => find_all_from pat rest (S pos) k
      | O =>
          if String.prefix pat text
          then pos :: find_all_from pat rest (S pos) (String.length pat - 1)
          else find_all_from pat rest (S pos) 0
      end
  end.

(** Modelled from the spec: the deny-list pattern recognizer (Presidio's
    [PatternRecognizer], not part of this module) reports every verbatim
    occurrence of a deny-list string, tagged with its entity type
    (spec sections 3 and 8). *)
Definition SpecPatternRecognizer (supported_entity : string) (deny_list : list string)
    : SpecRecognizer :=
  λ text _,
    mjoin ((λ name,
              (λ i, mkRecognizerResult supported_entity i (i + String.length name) 1%Qc)
                <$> find_all_from name text 0 0)
             <$> deny_list).

(** Modelled from the spec: the detector (Presidio's [AnalyzerEngine], not
    part of this module) runs the registered recognizers and keeps the
    detections whose entity type is in the scan list (spec section 4.2). *)
Definition spec_analyze (registry : list SpecRecognizer) (text : string)
    (entities : list string) (language : string) : list RecognizerResult :=
  filter (λ r, entity_type r ∈ entities)
         (mjoin ((λ recognizer, recognizer text language) <$> registry)).

(** The detections the replacer acts on: those whose entity type has a
    redaction rule. *)
Definition mapped (operators : gmap string OperatorConfig) (rs : list RecognizerResult)
    : list RecognizerResult :=
  filter (λ r, is_Some (operators !! entity_type r)) rs.


(** The text an operator puts in place of a span. *)
Definition new_value (operators : gmap string OperatorConfig) (r : RecognizerResult)
    : string :=
  match operators !! entity_type r with
  | Some op => default "" (params op !! "new_value")
  | None => ""
  end.


Definition splice (operators : gmap string OperatorConfig) (text : string)
    (r : RecognizerResult) : string :=
  string_take (start r) text ++ new_value operators r ++ string_drop (end_ r) text.

(** The order in which spans are replaced: later spans first. *)
Definition starts_after (a b : RecognizerResult) : Prop := (start b ≤ start a)%nat.

#[global] Instance starts_after_dec : RelDecision starts_after.
Proof. intros a b. unfold starts_after. apply _. Defined.

(** Modelled from the spec: the replacer (Presidio's [AnonymizerEngine],
    not part of this module) replaces the span of every detection whose
    entity type is in the operator mapping, and leaves the other
    detections alone (spec section 4.2).  Spans are replaced from the
    right-most to the left-most so that offsets stay valid; the model
    takes the spans to be disjoint. *)
Definition spec_anonymize (text : string) (analyzer_results : list RecognizerResult)
    (operators : gmap string OperatorConfig) : string :=
  foldl (splice operators) text
        (merge_sort starts_after (mapped operators analyzer_results)).

(** The model as an instance of the engine interface, over any set of
    built-in recognizers. *)
Definition SpecPresidio (predefined : list SpecRecognizer) : Presidio := {|
  Recognizer := SpecRecognizer;
  predefined_recognizers := predefined;
  PatternRecognizer := SpecPatternRecognizer;
  analyze := spec_analyze;
  anonymize := spec_anonymize
|}.

End SpecEngines.

(** ** The replacer as the library has it *)

Module LibraryEngines.

(** Modelled from the library: the replacer of [presidio_anonymizer] (not
    part of this module) differs from the description in spec section 4.2
    in one respect that matters here: an entity type without an operator of
    its own is not left alone, it gets the operator stored under the key
    ["DEFAULT"], and failing that the plain [replace] operator, which
    writes [<ENTITY_TYPE>].  The definitions below follow the library's
    [AnonymizerEngine.anonymize] for the operator [replace], the only one
    this module configures, and for detections whose spans are non-empty,
    lie within the text and do not overlap; what the library does before
    the replacement (dropping conflicting detections, merging neighbours
    of one entity type that only spaces separate) is outside the model and
    excluded by [well_separated]. *)

Definition chars (text : string) : list ascii := list_ascii_of_string text.

Definition text_of (cs : list ascii) : string := string_of_list_ascii cs.

(** [OperatorConfig("replace")], the library's default operator. *)
Definition default_operator : OperatorConfig := mkOperatorConfig "replace" ∅.

(** The operator used for an entity type: its own, else the one under
    ["DEFAULT"], else the default operator. *)
Definition operator_for (operators : gmap string OperatorConfig) (entity : string)
    : OperatorConfig :=
  match operators !! entity with
  | Some op => op
  | None => default default_operator (operators !! "DEFAULT")
  end.

(** The operator [replace]: the parameter [new_value] if it is present and
    not empty, else the entity type in angle brackets. *)
Definition replace_operate (op : OperatorConfig) (entity : string) : string :=
  match params op !! "new_value" with
  | Some v => if decide (v = "") then "<" ++ entity ++ ">" else v
  | None => "<" ++ entity ++ ">"
  end.

(** What is written in place of the span of a detection. *)
Definition replacement (operators : gmap string OperatorConfig) (r : RecognizerResult)
    : string :=
  replace_operate (operator_for operators (entity_type r)) (entity_type r).

(** One replacement on the text built so far:
    [output_text[:start] + replacement + output_text[end:]]. *)
Definition splice (operators : gmap string OperatorConfig) (text : list ascii)
    (r : RecognizerResult) : list ascii :=
  (take (start r) text ++ chars (replacement operators r) ++ drop (end_ r) text)%list.










End LibraryEngines.

(** ** A concrete setting *)

(** Engines with two built-in recognizers that know one name each, a
    bundle with the deny list [["ACME Corp"]], a bundle whose scan list
    has an entity type without a redaction rule, and the table of the
    spec's example: one column ["text"] holding a sentence, a number and
    [None]. *)
Definition example_engines : Presidio :=
  SpecEngines.SpecPresidio
    [SpecEngines.SpecPatternRecognizer "PERSON" ["John Smith"];
     SpecEngines.SpecPatternRecognizer "LOCATION" ["Paris"]].

Definition example_bundle : @EngineConfig example_engines :=
  @initialize_anonymizer example_engines (Some ["ACME Corp"]) None.

Definition example_unmapped_bundle : @EngineConfig example_engines :=
  @mkEngineConfig example_engines
    (@mkAnalyzerEngine example_engines (@predefined_recognizers example_engines))
    mkAnonymizerEngine
    {[ "PERSON" := replace_name_redacted ]}
    ["PERSON"; "LOCATION"].

Definition example_table : DataFrame :=
  mkDataFrame 3 [("text", [PyStr "John Smith works here"; PyInt 42; PyNone])].

Definition example_df : loc := 1%positive.

Definition example_world : World := mkWorld {[ example_df := example_table ]} [].



(** A second table, whose first row mentions a place as well. *)
Definition example_travel_table : DataFrame :=
  mkDataFrame 2 [("text", [PyStr "John Smith moved to Paris"; PyNone])].

Definition example_travel_world : World :=
  mkWorld {[ example_df := example_travel_table ]} [].

(** ** Vocabulary for the further properties *)

(** The test of line 144 on one detection: its entity type is neither of
    the two names the module manages. *)
Definition edge_case (n : RecognizerResult) : bool :=
  bool_decide (entity_type n ≠ "PREDEFINED_NAME")
  && bool_decide (entity_type n ≠ "PERSON").

(** ** Properties of [initialize_anonymizer] *)

Section InitializerFacts.
Context `{P : Presidio}.

Lemma deny_list_bool_true (deny_list : option (list string)) :
  deny_list_bool deny_list = true ↔ ∃ l, deny_list = Some l ∧ l ≠ [].
Proof.
  split.
  - destruct deny_list as [[|x l]|]; simpl; try discriminate.
    intros _. by exists (x :: l).
  - intros (l & -> & Hl). by destruct l.
Qed.

Lemma deny_list_bool_false (deny_list : option (list string)) :
  deny_list_bool deny_list = false ↔ deny_list = None ∨ deny_list = Some [].
Proof.
  split.
  - destruct deny_list as [[|x l]|]; simpl; try discriminate; auto.
  - by intros [-> | ->].
Qed.

(** The two fields that depend on the deny list only. *)
Lemma initialize_entities deny_list flair_recognizer :
  entities (initialize_anonymizer deny_list flair_recognizer) =
  if deny_list_bool deny_list then ["PERSON"; "PREDEFINED_NAME"] else ["PERSON"].
Proof. unfold initialize_anonymizer. by destruct (deny_list_bool deny_list). Qed.

Lemma initialize_config deny_list flair_recognizer :
  config (initialize_anonymizer deny_list flair_recognizer) =
  if deny_list_bool deny_list
  then <["PREDEFINED_NAME" := replace_name_redacted]> {[ "PERSON" := replace_name_redacted ]}
  else {[ "PERSON" := replace_name_redacted ]}.
Proof. unfold initialize_anonymizer. by destruct (deny_list_bool deny_list). Qed.

Lemma initialize_registry deny_list flair_recognizer :
  registry (analyzer (initialize_anonymizer deny_list flair_recognizer)) =
  (predefined_recognizers
   ++ (if deny_list_bool deny_list
       then [PatternRecognizer "PREDEFINED_NAME" (default [] deny_list)] else [])
   ++ (match flair_recognizer with Some r => [r] | None => [] end))%list.
Proof.
  unfold initialize_anonymizer, add_recognizer, load_predefined_recognizers,
    RecognizerRegistry.
  destruct (deny_list_bool deny_list), flair_recognizer; simpl;
    rewrite ?app_nil_r, <- ?app_assoc; reflexivity.
Qed.

(** C1: whatever the deny list and the auxiliary recognizer, every entity
    type in the bundle's ['entities'] list is a key of its ['config']
    mapping. *)
Theorem initialize_entities_in_config
    (deny_list : option (list string)) (flair_recognizer : option Recognizer) :
  Forall (λ e, is_Some (config (initialize_anonymizer deny_list flair_recognizer) !! e))
         (entities (initialize_anonymizer deny_list flair_recognizer)).
Proof.
  rewrite initialize_entities, initialize_config.
  destruct (deny_list_bool deny_list); repeat constructor; by simplify_map_eq.
Qed.

(** C2: every bundle scans for [PERSON] and maps [PERSON] to the operator
    [replace] with the fixed new value ["[name redacted]"]. *)
Theorem initialize_person
    (deny_list : option (list string)) (flair_recognizer : option Recognizer) :
  let bundle := initialize_anonymizer deny_list flair_recognizer in
  "PERSON" ∈ entities bundle ∧
  ∃ op, config bundle !! "PERSON" = Some op ∧
        operator_name op = "replace" ∧
        params op = {[ "new_value" := "[name redacted]" ]}.
Proof.
  simpl. rewrite initialize_entities, initialize_config. split.
  - destruct (deny_list_bool deny_list); set_solver.
  - exists replace_name_redacted.
    destruct (deny_list_bool deny_list); by simplify_map_eq.
Qed.

(** C3: a non-empty deny list makes the initializer build the pattern
    recognizer for [PREDEFINED_NAME] from that list and register it (after
    the built-in recognizers), append [PREDEFINED_NAME] to the scan list
    and map it to ["[name redacted]"]; with the deny list omitted or
    empty, no such recognizer is registered and [PREDEFINED_NAME] is in
    neither the scan list nor the mapping. *)
Theorem initialize_deny_list
    (deny_list : option (list string)) (flair_recognizer : option Recognizer) :
  let bundle := initialize_anonymizer deny_list flair_recognizer in
  let flair := match flair_recognizer with Some r => [r] | None => [] end in
  (∀ l, deny_list = Some l → l ≠ [] →
     registry (analyzer bundle) =
       (predefined_recognizers ++ [PatternRecognizer "PREDEFINED_NAME" l] ++ flair)%list ∧
     entities bundle = ["PERSON"; "PREDEFINED_NAME"] ∧
     config bundle !! "PREDEFINED_NAME" = Some replace_name_redacted ∧
     replace_name_redacted =
       mkOperatorConfig "replace" {[ "new_value" := "[name redacted]" ]}) ∧
  (deny_list = None ∨ deny_list = Some [] →
     registry (analyzer bundle) = (predefined_recognizers ++ flair)%list ∧
     ("PREDEFINED_NAME" ∉ entities bundle) ∧
     config bundle !! "PREDEFINED_NAME" = None).
Proof.
  simpl. rewrite initialize_registry, initialize_entities, initialize_config.
  split.
  - intros l -> Hl.
    assert (deny_list_bool (Some l) = true) as ->
      by (apply deny_list_bool_true; eauto).
    simpl. repeat split.
  - intros H%deny_list_bool_false. rewrite H.
    simpl. split; [done | split].
    + by intros ?%list_elem_of_singleton.
    + by simplify_map_eq.
Qed.

(** C9: supplying an auxiliary recognizer registers that very object,
    last in the registry, and changes nothing else in the bundle: the
    scan list, the redaction mapping and the replacer are the ones of the
    call without it. *)
Theorem initialize_flair_frame (deny_list : option (list string)) (r : Recognizer) :
  let with_flair := initialize_anonymizer deny_list (Some r) in
  let without := initialize_anonymizer deny_list None in
  registry (analyzer with_flair) = (registry (analyzer without) ++ [r])%list ∧
  entities with_flair = entities without ∧
  config with_flair = config without ∧
  anonymizer with_flair = anonymizer without.
Proof.
  simpl. rewrite !initialize_registry, !initialize_entities, !initialize_config.
  repeat split.
  - by rewrite app_nil_r, !app_assoc.
  - by destruct (anonymizer _), (anonymizer _).
Qed.

End InitializerFacts.

(** ** Properties of the reference replacer *)

Lemma mapped_idemp (operators : gmap string OperatorConfig) (rs : list RecognizerResult) :
  SpecEngines.mapped operators (SpecEngines.mapped operators rs) =
  SpecEngines.mapped operators rs.
Proof.
  unfold SpecEngines.mapped. induction rs as [|r rs IH]; [done|].
  rewrite (filter_cons _ r rs). case_decide as Hr.
  - rewrite filter_cons. rewrite decide_True by done. by rewrite IH.
  - done.
Qed.

(** The reference replacer leaves a text without detections as it is. *)
Lemma SpecEngines_anonymize_nil (text : string) (operators : gmap string OperatorConfig) :
  SpecEngines.spec_anonymize text [] operators = text.
Proof. reflexivity. Qed.

(** The reference replacer ignores detections without a redaction rule. *)
Lemma SpecEngines_anonymize_mapped (text : string) (rs : list RecognizerResult)
    (operators : gmap string OperatorConfig) :
  SpecEngines.spec_anonymize text rs operators =
  SpecEngines.spec_anonymize text (SpecEngines.mapped operators rs) operators.
Proof. unfold SpecEngines.spec_anonymize. by rewrite mapped_idemp. Qed.

(** ** Properties of [anonymize_text] *)

Section TextFacts.
Context `{P : Presidio}.

Lemma anonymize_text_unfold (text : string) (engine_config : EngineConfig) :
  anonymize_text text engine_config =
  (anonymize text (detections engine_config text) (config engine_config),
   detections engine_config text).
Proof. reflexivity. Qed.

(** C5: with a replacer that returns a text without detections as it is,
    [anonymize_text] returns any text on which the detector reports
    nothing unchanged, with an empty detection list; in particular a text
    that came out of [anonymize_text] and in which the detector finds no
    further name comes back unchanged when it is anonymized again. *)
Theorem anonymize_text_no_detections
    (Hnil : ∀ t ops, anonymize t [] ops = t)
    (engine_config : EngineConfig) :
  (∀ text, detections engine_config text = [] →
     anonymize_text text engine_config = (text, [])) ∧
  (∀ text,
     let redacted := (anonymize_text text engine_config).1 in
     detections engine_config redacted = [] →
     anonymize_text redacted engine_config = (redacted, [])).
Proof.
  assert (∀ text, detections engine_config text = [] →
            anonymize_text text engine_config = (text, [])) as Hnone.
  { intros text Hd. rewrite anonymize_text_unfold, Hd. by rewrite Hnil. }
  split; [exact Hnone|]. intros text redacted. apply Hnone.
Qed.

End TextFacts.

(** ** [anonymize_text] with the library's replacer *)






Lemma text_of_chars (text : string) :
  LibraryEngines.text_of (LibraryEngines.chars text) = text.
Proof. apply string_of_list_ascii_of_string. Qed.

Section LibraryFacts.
Context {R : Type} (predefined : list R) (pattern : string -> list string -> R)
  (detector : list R -> string -> list string -> string -> list RecognizerResult).





End LibraryFacts.

(** ** Properties of [anonymize_dataframe_column] *)

Lemma column_lookup_assign_eq name values cols :
  column_lookup name (column_assign name values cols) = Some values.
Proof.
  induction cols as [|[k v] cols IH]; simpl.
  - by rewrite decide_True.
  - destruct (decide (k = name)) as [->|Hk]; simpl.
    + by rewrite decide_True.
    + by rewrite decide_False.
Qed.

Lemma column_lookup_assign_ne name name' values cols :
  name ≠ name' →
  column_lookup name' (column_assign name values cols) = column_lookup name' cols.
Proof.
  intros Hne. induction cols as [|[k v] cols IH]; simpl.
  - by rewrite decide_False.
  - destruct (decide (k = name)) as [->|Hk]; simpl.
    + by rewrite !decide_False.
    + by rewrite IH.
Qed.

Lemma column_assign_labels name values cols :
  (column_assign name values cols).*1 =
  match column_lookup name cols with
  | Some _ => cols.*1
  | None => (cols.*1 ++ [name])%list
  end.
Proof.
  induction cols as [|[k v] cols IH]; [done|].
  cbn [column_assign column_lookup].
  destruct (decide (k = name)) as [->|Hk]; rewrite !fmap_cons; [done|].
  rewrite IH. by destruct (column_lookup name cols).
Qed.

Lemma column_lookup_length d name series :
  df_wf d → column_lookup name (columns d) = Some series → length series = nrows d.
Proof.
  intros [Hlen _]. induction Hlen as [|[k v] cols Hc _ IH]; simpl; [done|].
  destruct (decide (k = name)); [|done]. by intros [= <-].
Qed.

Section ColumnFacts.
Context `{P : Presidio}.

Lemma report_edge_cases_run (ent_list : list RecognizerResult) (w : World) :
  report_edge_cases ent_list w =
  (Returns tt, mkWorld (heap w) (stdout w ++ edge_notices ent_list)).
Proof.
  revert w. induction ent_list as [|n rest IH]; intros [h out]; simpl.
  - unfold ret. by rewrite app_nil_r.
  - unfold bind at 1. unfold edge_notices. simpl.
    destruct (bool_decide (entity_type n ≠ "PREDEFINED_NAME")
              && bool_decide (entity_type n ≠ "PERSON")); simpl.
    + rewrite IH. simpl. unfold edge_notices. by rewrite <- !app_assoc.
    + by rewrite IH.
Qed.

Lemma anonymize_values_run (source : list Cell) (engine_config : EngineConfig)
    (anonymized_values : list string) (w : World) :
  anonymize_values (astype_str source) engine_config anonymized_values w =
  (Returns (anonymized_values
            ++ ((λ v, (anonymize_text (py_str v) engine_config).1) <$> source))%list,
   mkWorld (heap w) (stdout w ++ column_notices engine_config source)).
Proof.
  revert anonymized_values w.
  induction source as [|v source IH]; intros acc [h out]; simpl.
  - unfold ret. by rewrite !app_nil_r.
  - unfold bind. simpl. rewrite report_edge_cases_run. simpl.
    rewrite IH. simpl. unfold column_notices. simpl.
    by rewrite <- !app_assoc.
Qed.

(** The body is line 138 followed by the rest. *)
Lemma anonymize_dataframe_column_split df column_name new_column_name engine_config w :
  anonymize_dataframe_column df column_name new_column_name engine_config w =
  (coerce_source df column_name ;;;
   anonymize_rows df column_name new_column_name engine_config) w.
Proof.
  unfold anonymize_dataframe_column, coerce_source, anonymize_rows, bind.
  destruct (df_getitem df column_name w) as [[series|e] w1]; [|done].
  by destruct (df_setitem df column_name (astype_str series) w1) as [[[]|e] w2].
Qed.

Lemma coerce_source_run df column_name w d source :
  heap w !! df = Some d →
  df_wf d →
  column_lookup column_name (columns d) = Some source →
  coerce_source df column_name w =
  (Returns tt,
   mkWorld (<[df := mkDataFrame (nrows d)
                      (column_assign column_name (astype_str source) (columns d))]>
              (heap w))
           (stdout w)).
Proof.
  intros Hd Hwf Hsrc. unfold coerce_source, bind, df_getitem, df_setitem.
  rewrite Hd, Hsrc, Hd. rewrite decide_True; [done|].
  unfold astype_str. rewrite length_fmap. by eapply column_lookup_length.
Qed.

Lemma anonymize_rows_run df column_name new_column_name engine_config w d source :
  heap w !! df = Some d →
  column_lookup column_name (columns d) = Some (astype_str source) →
  length source = nrows d →
  anonymize_rows df column_name new_column_name engine_config w =
  (Returns df,
   mkWorld (<[df := mkDataFrame (nrows d)
                      (column_assign new_column_name
                         (anonymized_column engine_config source) (columns d))]>
              (heap w))
           (stdout w ++ column_notices engine_config source)).
Proof.
  intros Hd Hsrc Hlen. unfold anonymize_rows, bind at 1, df_getitem.
  rewrite Hd, Hsrc. unfold tqdm, bind at 1. rewrite anonymize_values_run.
  unfold bind, df_setitem, ret. simpl. rewrite Hd.
  rewrite decide_True by (by rewrite !length_fmap).
  unfold anonymized_column. by rewrite <- list_fmap_compose.
Qed.

(** The whole call on a table that has the source column. *)
Lemma anonymize_dataframe_column_run df column_name new_column_name engine_config
    w d source :
  heap w !! df = Some d →
  df_wf d →
  column_lookup column_name (columns d) = Some source →
  anonymize_dataframe_column df column_name new_column_name engine_config w =
  (Returns df,
   mkWorld (<[df := mkDataFrame (nrows d)
                      (column_assign new_column_name
                         (anonymized_column engine_config source)
                         (column_assign column_name (astype_str source) (columns d)))]>
              (heap w))
           (stdout w ++ column_notices engine_config source)).
Proof.
  intros Hd Hwf Hsrc. rewrite anonymize_dataframe_column_split.
  unfold bind. rewrite (coerce_source_run _ _ _ d source) by done.
  rewrite (anonymize_rows_run _ _ _ _ _
             (mkDataFrame (nrows d)
                (column_assign column_name (astype_str source) (columns d)))
             source).
  - simpl. by rewrite insert_insert_eq.
  - simpl. apply lookup_insert_eq.
  - simpl. apply column_lookup_assign_eq.
  - simpl. by eapply column_lookup_length.
Qed.

(** C4: on a table that has the source column the call returns, and the
    target column then has as many rows as the source column, row [i]
    being the anonymized text of the text of row [i] of the source;
    the rows are handled in order (the notices of the rows follow each
    other in row order); the target column is appended after the
    existing columns if its label is new and replaces the column of that
    label otherwise. *)
Theorem anonymize_dataframe_column_target
    (df : loc) (column_name new_column_name : string) (engine_config : EngineConfig)
    (w : World) (d : DataFrame) (source : list Cell) :
  heap w !! df = Some d →
  df_wf d →
  column_lookup column_name (columns d) = Some source →
  ∃ w' d' target,
    anonymize_dataframe_column df column_name new_column_name engine_config w
      = (Returns df, w') ∧
    heap w' !! df = Some d' ∧
    column_lookup new_column_name (columns d') = Some target ∧
    length target = length source ∧
    (∀ i v, source !! i = Some v →
       target !! i = Some (PyStr (anonymize_text (py_str v) engine_config).1)) ∧
    stdout w' = (stdout w ++ column_notices engine_config source)%list ∧
    (column_lookup new_column_name (columns d) = None →
       (columns d').*1 = ((columns d).*1 ++ [new_column_name])%list) ∧
    (is_Some (column_lookup new_column_name (columns d)) →
       (columns d').*1 = (columns d).*1).
Proof.
  intros Hd Hwf Hsrc.
  eexists _, _, (anonymized_column engine_config source).
  split; [by eapply anonymize_dataframe_column_run|]. simpl.
  split; [apply lookup_insert_eq|]. simpl.
  split; [apply column_lookup_assign_eq|].
  split; [apply length_fmap|].
  split.
  { intros i v Hi. unfold anonymized_column. by rewrite list_lookup_fmap, Hi. }
  split; [done|].
  rewrite !column_assign_labels, Hsrc.
  destruct (decide (column_name = new_column_name)) as [<-|Hne].
  - rewrite column_lookup_assign_eq, Hsrc. split; [done|by intros _].
  - rewrite column_lookup_assign_ne by done.
    split; [by intros ->|]. by intros [t ->].
Qed.

(** C7: line 138 replaces every value of the source column by its text
    representation before any row is processed: the rest of the body runs
    on a table whose source column holds [str(v)] for every value [v], the
    rows it produces are the anonymized texts of those strings, and [str]
    turns a number into its decimal numeral, [None] into ["None"] and a
    missing number into ["nan"]. *)
Theorem anonymize_dataframe_column_coerces
    (df : loc) (column_name new_column_name : string) (engine_config : EngineConfig)
    (w : World) (d : DataFrame) (source : list Cell) :
  heap w !! df = Some d →
  df_wf d →
  column_lookup column_name (columns d) = Some source →
  ∃ w1,
    coerce_source df column_name w = (Returns tt, w1) ∧
    df_getitem df column_name w1 = (Returns ((λ v, PyStr (py_str v)) <$> source), w1) ∧
    anonymize_dataframe_column df column_name new_column_name engine_config w
      = anonymize_rows df column_name new_column_name engine_config w1 ∧
    (∃ w' d',
       anonymize_rows df column_name new_column_name engine_config w1
         = (Returns df, w') ∧
       heap w' !! df = Some d' ∧
       column_lookup new_column_name (columns d')
         = Some ((λ v, PyStr (anonymize_text (py_str v) engine_config).1) <$> source)) ∧
    (∀ s, py_str (PyStr s) = s) ∧
    (∀ z, py_str (PyInt z) = pretty z) ∧
    py_str (PyInt 42) = "42" ∧
    py_str PyNone = "None" ∧
    py_str PyNaN = "nan".
Proof.
  intros Hd Hwf Hsrc. eexists.
  split; [by eapply coerce_source_run|].
  split.
  { unfold df_getitem. simpl. rewrite lookup_insert_eq. simpl.
    by rewrite column_lookup_assign_eq. }
  assert (anonymize_dataframe_column df column_name new_column_name engine_config w
          = anonymize_rows df column_name new_column_name engine_config
              (mkWorld (<[df := mkDataFrame (nrows d)
                                 (column_assign column_name (astype_str source)
                                    (columns d))]> (heap w)) (stdout w))) as Hsplit.
  { rewrite anonymize_dataframe_column_split. unfold bind.
    by rewrite (coerce_source_run _ _ _ d source). }
  split; [exact Hsplit|].
  split; [|by repeat split].
  rewrite <- Hsplit.
  rewrite (anonymize_dataframe_column_run _ _ _ _ _ d source) by done.
  eexists _, _. split; [done|]. simpl.
  split; [apply lookup_insert_eq|]. simpl. apply column_lookup_assign_eq.
Qed.

(** C10: the table is changed in place.  The call returns the address it
    was given, and when the target label is not the source label the
    object at that address afterwards has, as its source column, the text
    representation of every original value, next to the target column;
    no other object is touched. *)
Theorem anonymize_dataframe_column_mutates_source
    (df : loc) (column_name new_column_name : string) (engine_config : EngineConfig)
    (w : World) (d : DataFrame) (source : list Cell) :
  heap w !! df = Some d →
  df_wf d →
  column_lookup column_name (columns d) = Some source →
  column_name ≠ new_column_name →
  ∃ w' d' coerced,
    anonymize_dataframe_column df column_name new_column_name engine_config w
      = (Returns df, w') ∧
    heap w' !! df = Some d' ∧
    column_lookup column_name (columns d') = Some coerced ∧
    length coerced = length source ∧
    (∀ i v, source !! i = Some v → coerced !! i = Some (PyStr (py_str v))) ∧
    is_Some (column_lookup new_column_name (columns d')) ∧
    (∀ other, other ≠ df → heap w' !! other = heap w !! other).
Proof.
  intros Hd Hwf Hsrc Hne.
  eexists _, _, (astype_str source).
  split; [by eapply anonymize_dataframe_column_run|]. simpl.
  split; [apply lookup_insert_eq|]. simpl.
  split.
  { rewrite column_lookup_assign_ne by done. apply column_lookup_assign_eq. }
  split; [apply length_fmap|].
  split.
  { intros i v Hi. unfold astype_str. by rewrite list_lookup_fmap, Hi. }
  split; [by rewrite column_lookup_assign_eq|].
  intros other Hother. by rewrite lookup_insert_ne.
Qed.

End ColumnFacts.

(** ** The properties at work in the concrete setting *)

Lemma example_table_wf : df_wf example_table.
Proof.
  split.
  - repeat constructor.
  - simpl. apply NoDup_singleton.
Qed.

(** The spec's example: the sentence loses the name, the number and
    [None] come back as their text. *)
Example example_column_run :
  let '(result, w) :=
    @anonymize_dataframe_column example_engines example_df "text" "text_anon"
      example_bundle example_world in
  result = Returns example_df ∧
  heap w !! example_df =
    Some (mkDataFrame 3
            [("text", [PyStr "John Smith works here"; PyStr "42"; PyStr "None"]);
             ("text_anon", [PyStr "[name redacted] works here"; PyStr "42"; PyStr "None"])]) ∧
  stdout w = [].
Proof. vm_compute. repeat split. Qed.

(** Under the reference replacer of spec section 4.2 a detection without
    a redaction rule is reported, printed as an edge case, and left in
    the text. *)
Example example_unmapped_run :
  @anonymize_text example_engines "John Smith moved to Paris" example_unmapped_bundle
  = ("[name redacted] moved to Paris",
     [mkRecognizerResult "PERSON" 0 10 1%Qc; mkRecognizerResult "LOCATION" 20 25 1%Qc]) ∧
  @edge_notices
    (@anonymize_text example_engines "John Smith moved to Paris" example_unmapped_bundle).2
  = [PrintStr "Edage Case Found!"; PrintResult (mkRecognizerResult "LOCATION" 20 25 1%Qc)].
Proof. vm_compute. split; reflexivity. Qed.

Lemma initialize_deny_list_witness :
  entities example_bundle = ["PERSON"; "PREDEFINED_NAME"] ∧
  config example_bundle !! "PREDEFINED_NAME" = Some replace_name_redacted ∧
  config (@initialize_anonymizer example_engines None None) !! "PREDEFINED_NAME" = None.
Proof.
  pose proof (@initialize_deny_list example_engines (Some ["ACME Corp"]) None) as [Hsome _].
  pose proof (@initialize_deny_list example_engines None None) as [_ Hnone].
  destruct (Hsome ["ACME Corp"] eq_refl) as (_ & Hentities & Hconfig & _);
    [discriminate|].
  destruct (Hnone (or_introl eq_refl)) as (_ & _ & Hconfig').
  exact (conj Hentities (conj Hconfig Hconfig')).
Defined.

Lemma anonymize_dataframe_column_target_witness :
  ∃ w' d' target,
    @anonymize_dataframe_column example_engines example_df "text" "text_anon"
      example_bundle example_world = (Returns example_df, w') ∧
    heap w' !! example_df = Some d' ∧
    column_lookup "text_anon" (columns d') = Some target ∧
    length target = 3.
Proof.
  destruct (@anonymize_dataframe_column_target example_engines example_df
              "text" "text_anon" example_bundle example_world example_table
              [PyStr "John Smith works here"; PyInt 42; PyNone])
    as (w' & d' & target & Hrun & Hd' & Htarget & Hlen & _).
  - reflexivity.
  - exact example_table_wf.
  - reflexivity.
  - exists w', d', target. exact (conj Hrun (conj Hd' (conj Htarget Hlen))).
Defined.

Lemma anonymize_dataframe_column_coerces_witness :
  ∃ w1,
    coerce_source example_df "text" example_world = (Returns tt, w1) ∧
    df_getitem example_df "text" w1
      = (Returns [PyStr "John Smith works here"; PyStr "42"; PyStr "None"], w1).
Proof.
  destruct (@anonymize_dataframe_column_coerces example_engines example_df
              "text" "text_anon" example_bundle example_world example_table
              [PyStr "John Smith works here"; PyInt 42; PyNone])
    as (w1 & Hcoerce & Hget & _).
  - reflexivity.
  - exact example_table_wf.
  - reflexivity.
  - exists w1. exact (conj Hcoerce Hget).
Defined.

Lemma anonymize_dataframe_column_mutates_source_witness :
  ∃ w' d' coerced,
    @anonymize_dataframe_column example_engines example_df "text" "text_anon"
      example_bundle example_world = (Returns example_df, w') ∧
    heap w' !! example_df = Some d' ∧
    column_lookup "text" (columns d') = Some coerced ∧
    coerced !! 1 = Some (PyStr "42") ∧
    coerced !! 2 = Some (PyStr "None").
Proof.
  destruct (@anonymize_dataframe_column_mutates_source example_engines example_df
              "text" "text_anon" example_bundle example_world example_table
              [PyStr "John Smith works here"; PyInt 42; PyNone])
    as (w' & d' & coerced & Hrun & Hd' & Hcol & _ & Hrows & _).
  - reflexivity.
  - exact example_table_wf.
  - reflexivity.
  - discriminate.
  - exists w', d', coerced.
    exact (conj Hrun (conj Hd' (conj Hcol
             (conj (Hrows 1 (PyInt 42) eq_refl) (Hrows 2 PyNone eq_refl))))).
Defined.

Lemma anonymize_text_no_detections_witness :
  @anonymize_text example_engines "[name redacted] works here" example_bundle
    = ("[name redacted] works here", []) ∧
  (let redacted :=
     (@anonymize_text example_engines "John Smith works here" example_bundle).1 in
   @anonymize_text example_engines redacted example_bundle = (redacted, [])).
Proof.
  destruct (@anonymize_text_no_detections example_engines
              SpecEngines_anonymize_nil example_bundle) as [Hnone Hagain].
  split.
  - apply Hnone. vm_compute. reflexivity.
  - apply Hagain. vm_compute. reflexivity.
Defined.






(** ** Further properties of [initialize_anonymizer] *)

Section InitializerMore.
Context `{P : Presidio}.

(** X1: the scan list and the redaction mapping of a bundle name the same
    entity types, each once: the keys of ['config'] are exactly the
    members of ['entities'] (so there is no rule for a type that is not
    scanned for either), and ['entities'] has no repetition. *)
Theorem initialize_config_keys
    (deny_list : option (list string)) (flair_recognizer : option Recognizer) :
  let bundle := initialize_anonymizer deny_list flair_recognizer in
  dom (config bundle) = list_to_set (entities bundle) ∧
  NoDup (entities bundle).
Proof.
  simpl. rewrite initialize_entities, initialize_config.
  destruct (deny_list_bool deny_list).
  - split.
    + rewrite dom_insert_L, dom_singleton_L. simpl. set_solver.
    + apply NoDup_cons. split; [|apply NoDup_singleton].
      by intros ?%list_elem_of_singleton.
  - split.
    + rewrite dom_singleton_L. simpl. set_solver.
    + apply NoDup_singleton.
Qed.

End InitializerMore.

(** ** Further properties of [anonymize_dataframe_column] *)

Lemma column_lookup_None name cols :
  column_lookup name cols = None ↔ name ∉ cols.*1.
Proof.
  induction cols as [|[k v] cols IH]; simpl.
  - split; [intros _; apply not_elem_of_nil | done].
  - rewrite not_elem_of_cons. destruct (decide (k = name)) as [->|Hk].
    + split; [done | by intros [? _]].
    + rewrite IH. split; [by intros ?; split | by intros [_ ?]].
Qed.

Lemma column_assign_id name values cols :
  column_lookup name cols = Some values → column_assign name values cols = cols.
Proof.
  induction cols as [|[k v] cols IH]; simpl; [done|].
  destruct (decide (k = name)) as [->|Hk].
  - by intros [= ->].
  - intros H. by rewrite IH.
Qed.

Lemma column_assign_wf d name values :
  df_wf d →
  length values = nrows d →
  df_wf (mkDataFrame (nrows d) (column_assign name values (columns d))).
Proof.
  destruct d as [n cols]. intros [Hlen Hnodup] Hvalues. simpl in *. split; simpl.
  - clear Hnodup. induction Hlen as [|[k v] cols Hc Hrest IH]; simpl.
    + by repeat constructor.
    + destruct (decide (k = name)); constructor; done.
  - rewrite column_assign_labels.
    destruct (column_lookup name cols) eqn:Hlookup; [done|].
    apply NoDup_app. split; [done|]. split; [|apply NoDup_singleton].
    intros x Hx ->%list_elem_of_singleton.
    by apply column_lookup_None in Hlookup.
Qed.

Section ColumnMore.
Context `{P : Presidio}.

(** The table a successful call leaves behind is well formed. *)
Lemma anonymized_table_wf d column_name new_column_name engine_config source :
  df_wf d →
  column_lookup column_name (columns d) = Some source →
  df_wf (mkDataFrame (nrows d)
           (column_assign new_column_name (anonymized_column engine_config source)
              (column_assign column_name (astype_str source) (columns d)))).
Proof.
  intros Hwf Hsrc.
  pose proof (column_lookup_length _ _ _ Hwf Hsrc) as Hlen.
  apply (column_assign_wf
           (mkDataFrame (nrows d)
              (column_assign column_name (astype_str source) (columns d)))).
  - apply column_assign_wf; [done|]. unfold astype_str. by rewrite length_fmap.
  - simpl. unfold anonymized_column. by rewrite length_fmap.
Qed.

(** X2: on a table that lacks the source column the call raises
    [KeyError] for that label at line 138 and has no effect at all: the
    table is not changed and nothing is printed. *)
Theorem anonymize_dataframe_column_missing
    (df : loc) (column_name new_column_name : string) (engine_config : EngineConfig)
    (w : World) (d : DataFrame) :
  heap w !! df = Some d →
  column_lookup column_name (columns d) = None →
  anonymize_dataframe_column df column_name new_column_name engine_config w
  = (Raises (KeyError column_name), w).
Proof.
  intros Hd Hmissing.
  unfold anonymize_dataframe_column, bind, df_getitem. by rewrite Hd, Hmissing.
Qed.

(** X3: the call keeps a table well formed: afterwards every column,
    the new one included, spans the same index as before and no label
    occurs twice. *)
Theorem anonymize_dataframe_column_keeps_wf
    (df : loc) (column_name new_column_name : string) (engine_config : EngineConfig)
    (w : World) (d : DataFrame) (source : list Cell) :
  heap w !! df = Some d →
  df_wf d →
  column_lookup column_name (columns d) = Some source →
  ∃ w' d',
    anonymize_dataframe_column df column_name new_column_name engine_config w
      = (Returns df, w') ∧
    heap w' !! df = Some d' ∧
    df_wf d' ∧
    nrows d' = nrows d.
Proof.
  intros Hd Hwf Hsrc. eexists _, _.
  split; [by eapply anonymize_dataframe_column_run|]. simpl.
  split; [apply lookup_insert_eq|].
  split; [by apply anonymized_table_wf | done].
Qed.

(** X4: the call touches the source and the target column only: every
    other column has the values it had, and the columns that were there
    keep their order, a new target column coming after them. *)
Theorem anonymize_dataframe_column_frame
    (df : loc) (column_name new_column_name : string) (engine_config : EngineConfig)
    (w : World) (d : DataFrame) (source : list Cell) :
  heap w !! df = Some d →
  df_wf d →
  column_lookup column_name (columns d) = Some source →
  ∃ w' d',
    anonymize_dataframe_column df column_name new_column_name engine_config w
      = (Returns df, w') ∧
    heap w' !! df = Some d' ∧
    (∀ other, other ≠ column_name → other ≠ new_column_name →
       column_lookup other (columns d') = column_lookup other (columns d)) ∧
    (columns d).*1 `prefix_of` (columns d').*1.
Proof.
  intros Hd Hwf Hsrc. eexists _, _.
  split; [by eapply anonymize_dataframe_column_run|]. simpl.
  split; [apply lookup_insert_eq|]. simpl. split.
  - intros other Hsource Htarget.
    by rewrite !column_lookup_assign_ne by done.
  - rewrite !column_assign_labels, Hsrc.
    destruct (column_lookup new_column_name _); [done|].
    by apply prefix_app_r.
Qed.

Lemma edge_notices_cons (n : RecognizerResult) (rest : list RecognizerResult) :
  edge_notices (n :: rest) =
  ((if edge_case n then [PrintStr "Edage Case Found!"; PrintResult n] else [])
   ++ edge_notices rest)%list.
Proof. reflexivity. Qed.

Lemma edge_notices_length (ent_list : list RecognizerResult) :
  length (edge_notices ent_list)
  = 2 * length (filter (λ n, Is_true (edge_case n)) ent_list).
Proof.
  induction ent_list as [|n rest IH]; [done|].
  rewrite edge_notices_cons, length_app, IH, filter_cons.
  destruct (edge_case n); simpl; lia.
Qed.

Lemma edge_notices_nil (ent_list : list RecognizerResult) :
  edge_notices ent_list = [] ↔
  ∀ n, n ∈ ent_list →
    entity_type n = "PREDEFINED_NAME" ∨ entity_type n = "PERSON".
Proof.
  induction ent_list as [|n rest IH].
  - split; [|done]. intros _ n Hn. by apply elem_of_nil in Hn.
  - rewrite edge_notices_cons. unfold edge_case.
    destruct (decide (entity_type n = "PREDEFINED_NAME")) as [Hpre|Hpre];
      [|destruct (decide (entity_type n = "PERSON")) as [Hper|Hper]].
    + rewrite (bool_decide_eq_false_2 _) by (by intros []). simpl.
      rewrite IH. split.
      * intros Hrest m [->|Hm]%elem_of_cons; auto.
      * intros Hall m Hm. apply Hall. by right.
    + rewrite (bool_decide_eq_false_2 (entity_type n ≠ "PERSON")) by (by intros []).
      rewrite andb_false_r. simpl. rewrite IH. split.
      * intros Hrest m [->|Hm]%elem_of_cons; auto.
      * intros Hall m Hm. apply Hall. by right.
    + rewrite !bool_decide_eq_true_2 by done. simpl. split; [done|].
      intros Hall. destruct (Hall n) as [?|?]; [by left|done..].
Qed.

Lemma column_notices_cons (engine_config : EngineConfig) (v : Cell) (source : list Cell) :
  column_notices engine_config (v :: source) =
  (edge_notices (anonymize_text (py_str v) engine_config).2
   ++ column_notices engine_config source)%list.
Proof. reflexivity. Qed.

Lemma column_notices_nil (engine_config : EngineConfig) (source : list Cell) :
  column_notices engine_config source = [] ↔
  ∀ v, v ∈ source → ∀ n, n ∈ (anonymize_text (py_str v) engine_config).2 →
    entity_type n = "PREDEFINED_NAME" ∨ entity_type n = "PERSON".
Proof.
  induction source as [|v source IH].
  - split; [|done]. intros _ v Hv. by apply elem_of_nil in Hv.
  - rewrite column_notices_cons. split.
    + intros [Hrow Hrest]%app_nil u [->|Hu]%elem_of_cons.
      * by apply edge_notices_nil.
      * by apply IH.
    + intros Hall. apply app_nil. split.
      * apply edge_notices_nil, Hall. by left.
      * apply IH. intros u Hu. apply Hall. by right.
Qed.

Lemma column_notices_length (engine_config : EngineConfig) (source : list Cell) :
  length (column_notices engine_config source)
  = 2 * sum_list ((λ v, length (filter (λ n, Is_true (edge_case n))
                                   (anonymize_text (py_str v) engine_config).2))
                    <$> source).
Proof.
  induction source as [|v source IH]; [done|].
  rewrite column_notices_cons, length_app, IH, edge_notices_length.
  rewrite fmap_cons. simpl. lia.
Qed.

(** X5: what the call prints.  Two lines are printed for every detection,
    of any row, whose entity type is neither [PREDEFINED_NAME] nor
    [PERSON], and nothing else; so the output is left as it was exactly
    when every detection of every row has one of the two managed types. *)
Theorem anonymize_dataframe_column_notices
    (df : loc) (column_name new_column_name : string) (engine_config : EngineConfig)
    (w : World) (d : DataFrame) (source : list Cell) :
  heap w !! df = Some d →
  df_wf d →
  column_lookup column_name (columns d) = Some source →
  ∃ w',
    anonymize_dataframe_column df column_name new_column_name engine_config w
      = (Returns df, w') ∧
    length (stdout w')
      = length (stdout w)
        + 2 * sum_list ((λ v, length (filter (λ n, Is_true (edge_case n))
                                        (anonymize_text (py_str v) engine_config).2))
                          <$> source) ∧
    (stdout w' = stdout w ↔
       ∀ v, v ∈ source → ∀ n, n ∈ (anonymize_text (py_str v) engine_config).2 →
         entity_type n = "PREDEFINED_NAME" ∨ entity_type n = "PERSON").
Proof.
  intros Hd Hwf Hsrc. eexists.
  split; [by eapply anonymize_dataframe_column_run|]. cbn [stdout]. split.
  - by rewrite length_app, column_notices_length.
  - rewrite <- column_notices_nil. split.
    + intros Happ. apply (app_inv_head (stdout w)). by rewrite app_nil_r.
    + intros ->. by rewrite app_nil_r.
Qed.

(** X6: with a bundle made by [initialize_anonymizer] and a detector that
    reports only entity types it was asked for, the call prints nothing:
    the scan list holds managed types only, so the edge-case branch is
    never taken. *)
Theorem anonymize_dataframe_column_silent
    (Hscan : ∀ registry text entities language n,
       n ∈ analyze registry text entities language → entity_type n ∈ entities)
    (deny_list : option (list string)) (flair_recognizer : option Recognizer)
    (df : loc) (column_name new_column_name : string)
    (w : World) (d : DataFrame) (source : list Cell) :
  heap w !! df = Some d →
  df_wf d →
  column_lookup column_name (columns d) = Some source →
  ∃ w',
    anonymize_dataframe_column df column_name new_column_name
      (initialize_anonymizer deny_list flair_recognizer) w
      = (Returns df, w') ∧
    stdout w' = stdout w.
Proof.
  intros Hd Hwf Hsrc. eexists.
  split; [by eapply anonymize_dataframe_column_run|]. cbn [stdout].
  rewrite (proj2 (column_notices_nil _ _)); [by rewrite app_nil_r|].
  intros v _ n Hn. apply Hscan in Hn.
  rewrite initialize_entities in Hn.
  destruct (deny_list_bool deny_list).
  - apply elem_of_cons in Hn as [->|Hn]; [by right|].
    apply list_elem_of_singleton in Hn. by left.
  - apply list_elem_of_singleton in Hn. by right.
Qed.

Lemma astype_str_idemp (series : list Cell) :
  astype_str (astype_str series) = astype_str series.
Proof. unfold astype_str. rewrite <- list_fmap_compose. by apply list_fmap_ext. Qed.

Lemma anonymized_column_astype (engine_config : EngineConfig) (series : list Cell) :
  anonymized_column engine_config (astype_str series)
  = anonymized_column engine_config series.
Proof.
  unfold anonymized_column, astype_str. rewrite <- list_fmap_compose.
  by apply list_fmap_ext.
Qed.

(** X7: calling again with the same arguments changes nothing more in the
    table: when the target label is not the source label, the heap after
    the second call is the heap after the first. *)
Theorem anonymize_dataframe_column_twice
    (df : loc) (column_name new_column_name : string) (engine_config : EngineConfig)
    (w : World) (d : DataFrame) (source : list Cell) :
  heap w !! df = Some d →
  df_wf d →
  column_lookup column_name (columns d) = Some source →
  column_name ≠ new_column_name →
  ∃ w1 w2,
    anonymize_dataframe_column df column_name new_column_name engine_config w
      = (Returns df, w1) ∧
    anonymize_dataframe_column df column_name new_column_name engine_config w1
      = (Returns df, w2) ∧
    heap w2 = heap w1.
Proof.
  intros Hd Hwf Hsrc Hne.
  set (d1 := mkDataFrame (nrows d)
               (column_assign new_column_name (anonymized_column engine_config source)
                  (column_assign column_name (astype_str source) (columns d)))).
  assert (column_lookup column_name (columns d1) = Some (astype_str source)) as Hsrc1.
  { unfold d1. cbn [columns]. rewrite column_lookup_assign_ne by done.
    apply column_lookup_assign_eq. }
  assert (column_lookup new_column_name (columns d1)
          = Some (anonymized_column engine_config source)) as Hnew1.
  { unfold d1. cbn [columns]. apply column_lookup_assign_eq. }
  eexists _, _.
  split; [by eapply anonymize_dataframe_column_run|].
  split.
  { apply (anonymize_dataframe_column_run _ _ _ _ _ d1 (astype_str source)).
    - cbn [heap]. apply lookup_insert_eq.
    - by apply anonymized_table_wf.
    - exact Hsrc1. }
  cbn [heap]. rewrite insert_insert_eq. f_equal.
  rewrite astype_str_idemp, anonymized_column_astype.
  rewrite (column_assign_id column_name) by exact Hsrc1.
  rewrite (column_assign_id new_column_name) by exact Hnew1.
  reflexivity.
Qed.

(** X8: calls chain.  Anonymizing column [a] into [b] under one bundle
    and then [b] into [c] under another leaves in [c], row by row, the
    second anonymization of the first anonymization of the text of the
    original value. *)
Theorem anonymize_dataframe_column_chain
    (df : loc) (a b c : string) (first second : EngineConfig)
    (w : World) (d : DataFrame) (source : list Cell) :
  heap w !! df = Some d →
  df_wf d →
  column_lookup a (columns d) = Some source →
  ∃ w1 w2 d2,
    anonymize_dataframe_column df a b first w = (Returns df, w1) ∧
    anonymize_dataframe_column df b c second w1 = (Returns df, w2) ∧
    heap w2 !! df = Some d2 ∧
    column_lookup c (columns d2)
      = Some ((λ v, PyStr (anonymize_text
                             (anonymize_text (py_str v) first).1 second).1)
                <$> source).
Proof.
  intros Hd Hwf Hsrc.
  set (d1 := mkDataFrame (nrows d)
               (column_assign b (anonymized_column first source)
                  (column_assign a (astype_str source) (columns d)))).
  eexists _, _, _.
  split; [by eapply anonymize_dataframe_column_run|].
  split.
  { apply (anonymize_dataframe_column_run _ _ _ _ _ d1
             (anonymized_column first source)).
    - cbn [heap]. apply lookup_insert_eq.
    - by apply anonymized_table_wf.
    - unfold d1. cbn [columns]. apply column_lookup_assign_eq. }
  cbn [heap]. split; [apply lookup_insert_eq|]. cbn [columns].
  rewrite column_lookup_assign_eq. f_equal.
  unfold anonymized_column. by rewrite <- list_fmap_compose.
Qed.

End ColumnMore.

(** ** A further property of [anonymize_text] *)

Section TextMore.
Context `{P : Presidio}.

(** X9: under a bundle made by [initialize_anonymizer], and with a
    detector that reports only entity types it was asked for, every
    detection that [anonymize_text] returns has a redaction rule in the
    bundle, and that rule is the replacement by ["[name redacted]"]. *)
Theorem anonymize_text_detections_have_rules
    (Hscan : ∀ registry text entities language n,
       n ∈ analyze registry text entities language → entity_type n ∈ entities)
    (deny_list : option (list string)) (flair_recognizer : option Recognizer)
    (text : string) :
  let bundle := initialize_anonymizer deny_list flair_recognizer in
  Forall (λ n, config bundle !! entity_type n = Some replace_name_redacted)
         (anonymize_text text bundle).2.
Proof.
  cbn zeta. apply Forall_forall. intros n Hn.
  rewrite anonymize_text_unfold in Hn. cbn [snd] in Hn.
  apply Hscan in Hn. rewrite initialize_entities in Hn.
  rewrite initialize_config.
  destruct (deny_list_bool deny_list).
  - apply elem_of_cons in Hn as [->|Hn]; [by simplify_map_eq|].
    apply list_elem_of_singleton in Hn as ->. by simplify_map_eq.
  - apply list_elem_of_singleton in Hn as ->. by simplify_map_eq.
Qed.

End TextMore.

(** ** The further properties at work in the concrete setting *)

Lemma example_travel_table_wf : df_wf example_travel_table.
Proof.
  split.
  - repeat constructor.
  - simpl. apply NoDup_singleton.
Qed.

(** The reference detector reports only entity types of the scan list. *)
Lemma SpecEngines_analyze_scan registry text entities language n :
  n ∈ SpecEngines.spec_analyze registry text entities language →
  entity_type n ∈ entities.
Proof. unfold SpecEngines.spec_analyze. by intros [? _]%list_elem_of_filter. Qed.

Lemma anonymize_dataframe_column_missing_witness :
  @anonymize_dataframe_column example_engines example_df "name" "name_anon"
    example_bundle example_world
  = (Raises (KeyError "name"), example_world).
Proof.
  apply (@anonymize_dataframe_column_missing example_engines example_df
           "name" "name_anon" example_bundle example_world example_table).
  - reflexivity.
  - reflexivity.
Defined.

Lemma anonymize_dataframe_column_keeps_wf_witness :
  ∃ w' d',
    @anonymize_dataframe_column example_engines example_df "text" "text_anon"
      example_bundle example_world = (Returns example_df, w') ∧
    heap w' !! example_df = Some d' ∧
    df_wf d' ∧
    nrows d' = 3.
Proof.
  apply (@anonymize_dataframe_column_keeps_wf example_engines example_df
           "text" "text_anon" example_bundle example_world example_table
           [PyStr "John Smith works here"; PyInt 42; PyNone]).
  - reflexivity.
  - exact example_table_wf.
  - reflexivity.
Defined.

Lemma anonymize_dataframe_column_frame_witness :
  ∃ w' d',
    @anonymize_dataframe_column example_engines example_df "text" "text_anon"
      example_bundle example_world = (Returns example_df, w') ∧
    heap w' !! example_df = Some d' ∧
    ["text"] `prefix_of` (columns d').*1.
Proof.
  destruct (@anonymize_dataframe_column_frame example_engines example_df
              "text" "text_anon" example_bundle example_world example_table
              [PyStr "John Smith works here"; PyInt 42; PyNone])
    as (w' & d' & Hrun & Hd' & _ & Hlabels).
  - reflexivity.
  - exact example_table_wf.
  - reflexivity.
  - exists w', d'. exact (conj Hrun (conj Hd' Hlabels)).
Defined.

Lemma anonymize_dataframe_column_notices_witness :
  ∃ w',
    @anonymize_dataframe_column example_engines example_df "text" "text_anon"
      example_unmapped_bundle example_travel_world = (Returns example_df, w') ∧
    length (stdout w') = 2.
Proof.
  destruct (@anonymize_dataframe_column_notices example_engines example_df
              "text" "text_anon" example_unmapped_bundle example_travel_world
              example_travel_table [PyStr "John Smith moved to Paris"; PyNone])
    as (w' & Hrun & Hlen & _).
  - reflexivity.
  - exact example_travel_table_wf.
  - reflexivity.
  - exists w'. split; [exact Hrun|]. exact Hlen.
Defined.

Lemma anonymize_dataframe_column_silent_witness :
  ∃ w',
    @anonymize_dataframe_column example_engines example_df "text" "text_anon"
      (@initialize_anonymizer example_engines (Some ["ACME Corp"]) None)
      example_travel_world = (Returns example_df, w') ∧
    stdout w' = [].
Proof.
  apply (@anonymize_dataframe_column_silent example_engines
           SpecEngines_analyze_scan (Some ["ACME Corp"]) None example_df
           "text" "text_anon" example_travel_world example_travel_table
           [PyStr "John Smith moved to Paris"; PyNone]).
  - reflexivity.
  - exact example_travel_table_wf.
  - reflexivity.
Defined.

Lemma anonymize_dataframe_column_twice_witness :
  ∃ w1 w2,
    @anonymize_dataframe_column example_engines example_df "text" "text_anon"
      example_bundle example_world = (Returns example_df, w1) ∧
    @anonymize_dataframe_column example_engines example_df "text" "text_anon"
      example_bundle w1 = (Returns example_df, w2) ∧
    heap w2 = heap w1.
Proof.
  apply (@anonymize_dataframe_column_twice example_engines example_df
           "text" "text_anon" example_bundle example_world example_table
           [PyStr "John Smith works here"; PyInt 42; PyNone]).
  - reflexivity.
  - exact example_table_wf.
  - reflexivity.
  - discriminate.
Defined.

Lemma anonymize_dataframe_column_chain_witness :
  ∃ w1 w2 d2,
    @anonymize_dataframe_column example_engines example_df "text" "no_person"
      example_unmapped_bundle example_travel_world = (Returns example_df, w1) ∧
    @anonymize_dataframe_column example_engines example_df "no_person" "no_name"
      example_bundle w1 = (Returns example_df, w2) ∧
    heap w2 !! example_df = Some d2 ∧
    column_lookup "no_name" (columns d2)
      = Some [PyStr "[name redacted] moved to Paris"; PyStr "None"].
Proof.
  apply (@anonymize_dataframe_column_chain example_engines example_df
           "text" "no_person" "no_name" example_unmapped_bundle example_bundle
           example_travel_world example_travel_table
           [PyStr "John Smith moved to Paris"; PyNone]).
  - reflexivity.
  - exact example_travel_table_wf.
  - reflexivity.
Defined.

Lemma anonymize_text_detections_have_rules_witness :
  Forall (λ n, config example_bundle !! entity_type n = Some replace_name_redacted)
         (@anonymize_text example_engines "ACME Corp hired John Smith in Paris"
            example_bundle).2.
Proof.
  apply (@anonymize_text_detections_have_rules example_engines
           SpecEngines_analyze_scan (Some ["ACME Corp"]) None
           "ACME Corp hired John Smith in Paris").
Defined.

